(** * pydargparse: a shallow embedding of models.py, decorators.py, parse.py

    The development follows the three source modules of the package.  The
    first part fixes the fragment of Python's object model that the source
    relies on (values, exceptions, the heap of mutable objects, classes with
    their method resolution order, the attribute protocol with descriptors);
    the second part transcribes the source functions; the third part states
    and proves the properties. *)

From stdpp Require Import gmap strings list.
From Stdlib Require Import ZArith Lia.

Local Open Scope string_scope.

(** ** Python values *)

(** Classes, functions and heap cells are known by identity. *)
Definition cid := nat.
Definition fid := string.
Definition loc := nat.

(** [enum ListStyle] of models.py. *)
Inductive ListStyle := REPEAT_KEY | REPEAT_VALUE.

Definition ListStyle_value (s : ListStyle) : string :=
  match s with
  | REPEAT_KEY => "repeat_key"
  | REPEAT_VALUE => "repeat_value"
  end.

(** Immutable values are carried inline, every mutable object (list, dict,
    class instance, field descriptor) lives in the heap behind a [VRef], so
    that two names for the same object see each other's updates.  A
    [_SubArgsDefinition] is written once by its constructor and never
    updated or compared by identity, it is carried inline. *)
Inductive pyval :=
| VNone
| VBool (b : bool)
| VInt (n : Z)
| VStr (s : string)
| VType (c : cid)
| VFunc (f : fid)
| VMethod (f : fid) (self : loc)
| VListStyle (s : ListStyle)
| VSubArgsDefinition (sub_args : cid) (prefix : option string)
| VRef (l : loc).

#[global] Instance ListStyle_eq_dec : EqDecision ListStyle.
Proof. solve_decision. Defined.

#[global] Instance pyval_eq_dec : EqDecision pyval.
Proof. solve_decision. Defined.

Definition pyval_encode (v : pyval) :
    unit + bool + Z + string + nat + string + (string * nat) + bool
    + (nat * option string) + nat :=
  match v with
  | VNone => inl (inl (inl (inl (inl (inl (inl (inl (inl tt))))))))
  | VBool b => inl (inl (inl (inl (inl (inl (inl (inl (inr b))))))))
  | VInt n => inl (inl (inl (inl (inl (inl (inl (inr n)))))))
  | VStr s => inl (inl (inl (inl (inl (inl (inr s))))))
  | VType c => inl (inl (inl (inl (inl (inr c)))))
  | VFunc f => inl (inl (inl (inl (inr f))))
  | VMethod f l => inl (inl (inl (inr (f, l))))
  | VListStyle s => inl (inl (inr (bool_decide (s = REPEAT_KEY))))
  | VSubArgsDefinition c p => inl (inr (c, p))
  | VRef l => inr l
  end.

Definition pyval_decode
    (x : unit + bool + Z + string + nat + string + (string * nat) + bool
         + (nat * option string) + nat) : pyval :=
  match x with
  | inl (inl (inl (inl (inl (inl (inl (inl (inl _)))))))) => VNone
  | inl (inl (inl (inl (inl (inl (inl (inl (inr b)))))))) => VBool b
  | inl (inl (inl (inl (inl (inl (inl (inr n))))))) => VInt n
  | inl (inl (inl (inl (inl (inl (inr s)))))) => VStr s
  | inl (inl (inl (inl (inl (inr c))))) => VType c
  | inl (inl (inl (inl (inr f)))) => VFunc f
  | inl (inl (inl (inr (f, l)))) => VMethod f l
  | inl (inl (inr b)) => VListStyle (if b then REPEAT_KEY else REPEAT_VALUE)
  | inl (inr (c, p)) => VSubArgsDefinition c p
  | inr l => VRef l
  end.

#[global] Instance pyval_countable : Countable pyval.
Proof.
  apply (inj_countable' pyval_encode pyval_decode).
  intros [| | | | | | | [] | |]; reflexivity.
Defined.

(** [x is None], [x is False]: identity with a singleton. *)
Definition is_None (v : pyval) : bool :=
  match v with VNone => true | _ => false end.

Definition opt_str (o : option string) : pyval :=
  match o with Some s => VStr s | None => VNone end.
Definition opt_func (o : option fid) : pyval :=
  match o with Some f => VFunc f | None => VNone end.
Definition opt_bool (o : option bool) : pyval :=
  match o with Some b => VBool b | None => VNone end.

(** ** Exceptions and outcomes *)

(** [SystemExit] and [ArgumentError] are the two forms of argparse's
    failure protocol.  [Unmodelled] is never raised by Python: the embedding
    answers with it where an operation leaves the modelled fragment (a
    user-defined special method would have to run). *)
Inductive exn_class :=
| AttributeError | KeyError | IndexError | TypeError | ValueError
| RecursionError | SystemExit | ArgumentError | Unmodelled.

#[global] Instance exn_class_eq_dec : EqDecision exn_class.
Proof. solve_decision. Defined.

(** The text of an exception raised by the source is its literal message;
    an exception raised by the interpreter carries the offending name or
    key only. *)
Record exn := Exn { exn_type : exn_class; exn_msg : string }.

#[global] Instance exn_eq_dec : EqDecision exn.
Proof. solve_decision. Defined.


Inductive outcome (A : Type) :=
| Return (a : A)
| Raise (e : exn).
Arguments Return {A} a.
Arguments Raise {A} e.

#[global] Instance outcome_ret : MRet outcome := @Return.
#[global] Instance outcome_bind : MBind outcome := λ A B f m,
  match m with
  | Return a => f a
  | Raise e => Raise e
  end.

(** ** models.py: the sentinel and the field descriptor *)

(** Identities of the classes that the package itself defines. *)
Definition object_cid : cid := 0.
Definition Undefined_cid : cid := 1.
Definition AppArguments_cid : cid := 2.
Definition SubCommandArguments_cid : cid := 3.

(** [class Undefined: pass]; the class object itself is the sentinel. *)
Definition Undefined : pyval := VType Undefined_cid.

(** [x is Undefined] / [x is not Undefined]. *)
Definition is_Undefined (v : pyval) : bool := bool_decide (v = Undefined).

Module Argument.

(** The attributes that [__init__] and [__set_name__] write on [self].
    Parameters are typed as the signature annotates them; [default] is
    [Any].  [_name] is absent until [__set_name__] has run. *)
Record t := mk {
  alias : option string;
  default : pyval;
  default_factory : option fid;
  custom_type : option fid;
  post_validator : option fid;
  required : option bool;
  help : option string;
  metavar : option string;
  list_style : ListStyle;
  custom_type_requires_list : bool;
  _name : option string;
}.

Definition err_both_defaults : exn :=
  Exn ValueError
      "Cannot use both 'default' and 'default_factory' for the same field".
Definition err_required_false : exn :=
  Exn ValueError "Cannot use 'required=False' when default value exists".
Definition err_requires_list : exn :=
  Exn ValueError
      "Cannot use 'custom_type_requires_list' without 'custom_type'".

(** [Argument.__init__].  The three checks are met in source order; the
    object under construction is visible to nobody when one of them
    raises, so the assignments between the checks are gathered in the
    record that is returned. *)
Definition __init__
    (alias : option string)
    (default : pyval)
    (default_factory : option fid)
    (custom_type : option fid)
    (post_validator : option fid)
    (required : option bool)
    (help_ : option string)
    (metavar : option string)
    (list_style : ListStyle)
    (custom_type_requires_list : bool) : outcome t :=
  if negb (is_Undefined default) && negb (is_None (opt_func default_factory))
  then Raise err_both_defaults
  else
    if bool_decide (required = Some false)
       && (negb (is_Undefined default)
           || negb (is_None (opt_func default_factory)))
    then Raise err_required_false
    else
      if custom_type_requires_list && is_None (opt_func custom_type)
      then Raise err_requires_list
      else Return (mk alias default default_factory custom_type
                      post_validator required help_ metavar list_style
                      custom_type_requires_list None).

(** [Argument(...)] with every keyword left at the default of the
    signature is [__init__ None Undefined None None None None None None
    REPEAT_KEY false]. *)

(** [__set_name__]: [self._name = name]. *)
Definition __set_name__ (self : t) (owner : pyval) (name : string) : t :=
  mk (alias self) (default self) (default_factory self) (custom_type self)
     (post_validator self) (required self) (help self) (metavar self)
     (list_style self) (custom_type_requires_list self) (Some name).

(** [__get__]: [getattr(instance, "_pydargparse_args")[self._name]].  The
    two interpreter operations it calls are passed in; the attribute
    protocol below ties the knot. *)
Definition __get__
    (getattr : pyval → string → outcome pyval)
    (getitem : pyval → pyval → outcome pyval)
    (self : t) (instance owner : pyval) : outcome pyval :=
  args ← getattr instance "_pydargparse_args";
  name ← match _name self with
         | Some n => Return n
         | None => Raise (Exn AttributeError "_name")
         end;
  getitem args (VStr name).

Definition err_immutable : exn :=
  Exn TypeError "Argument attributes are immutable".

(** [__set__]: raises, whatever the instance and the value. *)
Definition __set__ (self : t) (instance value : pyval) : outcome unit :=
  Raise err_immutable.

(** Reading an attribute of the descriptor object itself. *)
Definition attr (self : t) (name : string) : outcome pyval :=
  if decide (name = "alias") then Return (opt_str (alias self))
  else if decide (name = "default") then Return (default self)
  else if decide (name = "default_factory")
       then Return (opt_func (default_factory self))
  else if decide (name = "custom_type")
       then Return (opt_func (custom_type self))
  else if decide (name = "post_validator")
       then Return (opt_func (post_validator self))
  else if decide (name = "required") then Return (opt_bool (required self))
  else if decide (name = "help") then Return (opt_str (help self))
  else if decide (name = "metavar") then Return (opt_str (metavar self))
  else if decide (name = "list_style")
       then Return (VListStyle (list_style self))
  else if decide (name = "custom_type_requires_list")
       then Return (VBool (custom_type_requires_list self))
  else if decide (name = "_name")
       then match _name self with
            | Some n => Return (VStr n)
            | None => Raise (Exn AttributeError name)
            end
  else Raise (Exn AttributeError name).

End Argument.

(** ** The heap, the classes and the state *)

Inductive obj :=
| OList (items : list pyval)
| ODict (items : gmap pyval pyval)
| OInstance (cls : cid) (dict : gmap string pyval)
| OArgument (a : Argument.t).

(** A class: its printed name, its [__mro__] (itself first), its
    annotations in declaration order (kept as source text; no function of
    the package reads them) and its own namespace.  The source never
    rebinds a class attribute, the class table is not part of the mutable
    state. *)
Record class_def := Class {
  c_name : string;
  c_mro : list cid;
  c_annotations : list (string * string);
  c_dict : gmap string pyval;
}.

Abbreviation classes := (gmap cid class_def).
Abbreviation heap_t := (gmap loc obj).

(** Calls issued to the external parsing primitive, oldest first. *)
Inductive ext_call :=
| Call_ArgumentParser (kwargs : list (string * pyval))
| Call_add_argument (args : list pyval)
| Call_parse_args (args : option (list string)).

Record state := State {
  heap : heap_t;
  calls : list ext_call;
}.

Definition set_heap (h : heap_t) (st : state) : state :=
  State h (calls st).
Definition log_call (c : ext_call) (st : state) : state :=
  State (heap st) (calls st ++ [c]).

(** Computations that read and update the state and may raise; the state
    reached when an exception is raised is kept. *)
Definition M (A : Type) : Type := state → outcome A * state.

Definition ret {A} (a : A) : M A := λ st, (Return a, st).
Definition raise {A} (e : exn) : M A := λ st, (Raise e, st).
Definition bind {A B} (m : M A) (f : A → M B) : M B := λ st,
  match m st with
  | (Return a, st') => f a st'
  | (Raise e, st') => (Raise e, st')
  end.
(** A computation that only reads the heap. *)
Definition lift {A} (f : heap_t → outcome A) : M A := λ st, (f (heap st), st).

Notation "'let*' x ':=' m 'in' k" := (bind m (λ x, k))
  (at level 10, x name, m at level 200, k at level 200, only parsing).

(** ** The attribute protocol *)

(** Lookup of a name along an [__mro__]: the first class whose own
    namespace binds it wins. *)
Fixpoint mro_lookup (ct : classes) (mro : list cid) (name : string)
    : option pyval :=
  match mro with
  | [] => None
  | k :: ks =>
      match (ct !! k) ≫= (λ cd, c_dict cd !! name) with
      | Some v => Some v
      | None => mro_lookup ct ks name
      end
  end.

Definition type_lookup (ct : classes) (c : cid) (name : string)
    : option pyval :=
  (ct !! c) ≫= (λ cd, mro_lookup ct (c_mro cd) name).

(** The only descriptors of the package are the [Argument] objects; they
    define both [__get__] and [__set__] and so are data descriptors. *)
Definition as_Argument (h : heap_t) (v : pyval) : option Argument.t :=
  match v with
  | VRef l => match h !! l with
              | Some (OArgument a) => Some a
              | _ => None
              end
  | _ => None
  end.

(** [bool] is a subclass of [int]: both index sequences. *)
Definition as_index (v : pyval) : option Z :=
  match v with
  | VInt n => Some n
  | VBool b => Some (Z.b2z b)
  | _ => None
  end.

(** Lists and dicts have no hash. *)
Definition hashable (h : heap_t) (v : pyval) : bool :=
  match v with
  | VRef l => match h !! l with
              | Some (OList _) | Some (ODict _) => false
              | _ => true
              end
  | _ => true
  end.

Definition key_text (v : pyval) : string :=
  match v with
  | VStr s => s
  | _ => ""
  end.

(** [seq[i]] for a sequence of length [n]: negative indices count from the
    end. *)
Definition seq_index (n i : Z) : option nat :=
  if bool_decide (0 ≤ i < n)%Z then Some (Z.to_nat i)
  else if bool_decide (- n ≤ i < 0)%Z then Some (Z.to_nat (n + i))
  else None.

(** [o[key]].  Dict keys are compared structurally, which is Python's
    equality on strings and on class objects, the keys the package uses.  An
    instance of a class that defines [__getitem__] would run user code. *)
Definition getitem (ct : classes) (h : heap_t) (o key : pyval)
    : outcome pyval :=
  match o with
  | VRef l =>
      match h !! l with
      | Some (ODict m) =>
          if hashable h key then
            match m !! key with
            | Some v => Return v
            | None => Raise (Exn KeyError (key_text key))
            end
          else Raise (Exn TypeError "unhashable type")
      | Some (OList xs) =>
          match as_index key with
          | Some i =>
              match seq_index (Z.of_nat (length xs)) i ≫= (λ k, xs !! k) with
              | Some v => Return v
              | None => Raise (Exn IndexError "list index out of range")
              end
          | None => Raise (Exn TypeError "list indices must be integers")
          end
      | Some (OInstance cls _) =>
          match type_lookup ct cls "__getitem__" with
          | Some _ => Raise (Exn Unmodelled "__getitem__")
          | None => Raise (Exn TypeError "object is not subscriptable")
          end
      | Some (OArgument _) =>
          Raise (Exn TypeError "object is not subscriptable")
      | None => Raise (Exn Unmodelled "dangling reference")
      end
  | VStr s =>
      match as_index key with
      | Some i =>
          match seq_index (Z.of_nat (String.length s)) i
                ≫= (λ k, String.get k s) with
          | Some a => Return (VStr (String a EmptyString))
          | None => Raise (Exn IndexError "string index out of range")
          end
      | None => Raise (Exn TypeError "string indices must be integers")
      end
  | VType c =>
      match type_lookup ct c "__class_getitem__" with
      | Some _ => Raise (Exn Unmodelled "__class_getitem__")
      | None => Raise (Exn TypeError "type is not subscriptable")
      end
  | _ => Raise (Exn TypeError "object is not subscriptable")
  end.

(** [getattr(o, name)].

    - On a class: the name is looked up along the [__mro__]; a descriptor
      found there is asked through [__get__(None, owner)].
    - On an instance ([object.__getattribute__]): a data descriptor found on
      the type wins, then the instance's own [__dict__], then whatever the
      type binds, a function becoming a bound method.
    - Builtin objects answer [AttributeError]: none of the names that the
      package looks up on an object of unknown type ("Config", the
      parser settings, "_pydargparse_args", "_pydargparse_sub_args") is an
      attribute of a builtin.

    [Argument.__get__] calls [getattr] again, on the same instance and for
    the name "_pydargparse_args"; [depth] bounds the nesting of such calls,
    as the interpreter's recursion limit does, and [RecursionError] is
    raised at the bound. *)
Fixpoint getattr_rec (depth : nat) (ct : classes) (h : heap_t)
    (o : pyval) (name : string) : outcome pyval :=
  match depth with
  | O => Raise (Exn RecursionError "maximum recursion depth exceeded")
  | S depth =>
      let descr_get :=
        Argument.__get__ (getattr_rec depth ct h) (getitem ct h) in
      match o with
      | VType c =>
          match type_lookup ct c name with
          | Some v =>
              match as_Argument h v with
              | Some a => descr_get a VNone o
              | None => Return v
              end
          | None => Raise (Exn AttributeError name)
          end
      | VRef l =>
          match h !! l with
          | Some (OInstance cls d) =>
              let meta := type_lookup ct cls name in
              match meta ≫= as_Argument h with
              | Some a => descr_get a o (VType cls)
              | None =>
                  match d !! name with
                  | Some v => Return v
                  | None =>
                      match meta with
                      | Some (VFunc f) => Return (VMethod f l)
                      | Some v => Return v
                      | None => Raise (Exn AttributeError name)
                      end
                  end
              end
          | Some (OArgument a) => Argument.attr a name
          | _ => Raise (Exn AttributeError name)
          end
      | VSubArgsDefinition sub_args prefix =>
          if decide (name = "sub_args") then Return (VType sub_args)
          else if decide (name = "prefix") then Return (opt_str prefix)
          else Raise (Exn AttributeError name)
      | _ => Raise (Exn AttributeError name)
      end
  end.

Arguments getattr_rec : simpl never.

(** Two nested calls settle every read: the outer one may meet a
    descriptor, whose [__get__] reads "_pydargparse_args" on the instance;
    if that read meets a descriptor as well, its [__get__] repeats the very
    same read, and so on until the interpreter gives up.  Any larger bound,
    the interpreter's own included, yields the same outcome
    ([getattr_rec_stable] below). *)
Definition getattr (ct : classes) (h : heap_t) (o : pyval) (name : string)
    : outcome pyval :=
  getattr_rec 2 ct h o name.

(** [getattr(o, name, default)] and [hasattr(o, name)] swallow
    [AttributeError] and nothing else. *)
Definition getattr_default (ct : classes) (h : heap_t) (o : pyval)
    (name : string) (default : pyval) : outcome pyval :=
  match getattr ct h o name with
  | Return v => Return v
  | Raise e =>
      if decide (exn_type e = AttributeError) then Return default
      else Raise e
  end.

Definition hasattr (ct : classes) (h : heap_t) (o : pyval) (name : string)
    : outcome bool :=
  match getattr ct h o name with
  | Return _ => Return true
  | Raise e =>
      if decide (exn_type e = AttributeError) then Return false
      else Raise e
  end.

(** [o.name = value] on an instance ([object.__setattr__]): a data
    descriptor found on the type receives the assignment through
    [__set__]; otherwise the instance's own [__dict__] is updated.  Lists,
    dicts and immutable builtins accept no new attribute.  Rebinding an
    attribute of a class, of a function or of one of the package's helper
    objects does not occur in the package. *)
Definition setattr (ct : classes) (o : pyval) (name : string)
    (value : pyval) : M unit := λ st,
  match o with
  | VRef l =>
      match heap st !! l with
      | Some (OInstance cls d) =>
          match type_lookup ct cls name ≫= as_Argument (heap st) with
          | Some a => (Argument.__set__ a o value, st)
          | None =>
              (Return (),
               set_heap (<[l := OInstance cls (<[name := value]> d)]>
                           (heap st)) st)
          end
      | Some (OList _) | Some (ODict _) =>
          (Raise (Exn AttributeError name), st)
      | Some (OArgument _) => (Raise (Exn Unmodelled "setattr"), st)
      | None => (Raise (Exn Unmodelled "dangling reference"), st)
      end
  | VType _ | VFunc _ | VListStyle _ | VSubArgsDefinition _ _ =>
      (Raise (Exn Unmodelled "setattr"), st)
  | VNone | VBool _ | VInt _ | VStr _ | VMethod _ _ =>
      (Raise (Exn AttributeError name), st)
  end.

(** [str(cls)] for a class of the table. *)
Definition class_name (ct : classes) (c : cid) : string :=
  match ct !! c with
  | Some cd => c_name cd
  | None => ""
  end.

Definition str_type (ct : classes) (c : cid) : string :=
  "<class '" +:+ class_name ct c +:+ "'>".

(** [str(o.__class__)]: the type of an instance is the class it was created
    from. *)
Definition str_class_of (ct : classes) (h : heap_t) (o : pyval) : string :=
  match o with
  | VNone => "<class 'NoneType'>"
  | VBool _ => "<class 'bool'>"
  | VInt _ => "<class 'int'>"
  | VStr _ => "<class 'str'>"
  | VType _ => "<class 'type'>"
  | VFunc _ => "<class 'function'>"
  | VMethod _ _ => "<class 'method'>"
  | VListStyle _ => "<enum 'ListStyle'>"
  | VSubArgsDefinition _ _ =>
      "<class 'pydargparse.decorators._SubArgsDefinition'>"
  | VRef l =>
      match h !! l with
      | Some (OList _) => "<class 'list'>"
      | Some (ODict _) => "<class 'dict'>"
      | Some (OInstance cls _) => str_type ct cls
      | Some (OArgument _) => "<class 'pydargparse.models.Argument'>"
      | None => ""
      end
  end.

(** [o.append(x)].  [list.append] is the one builtin method that the package
    calls; any other receiver either has no [append] or binds it to user
    code. *)
Definition method_append (ct : classes) (o x : pyval) : M pyval := λ st,
  match o with
  | VRef l =>
      match heap st !! l with
      | Some (OList xs) =>
          (Return VNone, set_heap (<[l := OList (xs ++ [x])]> (heap st)) st)
      | _ =>
          match getattr ct (heap st) o "append" with
          | Raise e => (Raise e, st)
          | Return _ => (Raise (Exn Unmodelled "append"), st)
          end
      end
  | _ =>
      match getattr ct (heap st) o "append" with
      | Raise e => (Raise e, st)
      | Return _ => (Raise (Exn Unmodelled "append"), st)
      end
  end.

(** [cls()]: a class that defines no constructor of its own yields a fresh
    instance with an empty [__dict__]. *)
Definition instantiate (ct : classes) (c : cid) : M pyval := λ st,
  match type_lookup ct c "__new__", type_lookup ct c "__init__" with
  | None, None =>
      let l := fresh (dom (heap st)) in
      (Return (VRef l), set_heap (<[l := OInstance c ∅]> (heap st)) st)
  | _, _ => (Raise (Exn Unmodelled "constructor"), st)
  end.

(** ** models.py: [AppArguments] *)

Definition err_not_registered (ct : classes) (h : heap_t)
    (sub_args_type : cid) (self : pyval) : exn :=
  Exn ValueError
      ("Sub arguments type " +:+ str_type ct sub_args_type
       +:+ " wasn't registered in " +:+ str_class_of ct h self).

(** [AppArguments.pydargparse_get_sub_args]: the body of the [try] is the
    attribute read followed by the subscription; only [KeyError] is
    translated. *)
Definition pydargparse_get_sub_args (ct : classes) (h : heap_t)
    (self : pyval) (sub_args_type : cid) : outcome pyval :=
  match
    m ← getattr ct h self "_pydargparse_sub_args";
    getitem ct h m (VType sub_args_type)
  with
  | Return v => Return v
  | Raise e =>
      if decide (exn_type e = KeyError)
      then Raise (err_not_registered ct h sub_args_type self)
      else Raise e
  end.

(** The classes that models.py defines.  [AppArguments] annotates
    [_pydargparse_args] and [_pydargparse_sub_args] without binding them:
    its namespace holds the accessor only. *)
Definition models_classes : classes :=
  <[object_cid := Class "object" [object_cid] [] ∅]>
  (<[Undefined_cid :=
       Class "pydargparse.models.Undefined" [Undefined_cid; object_cid] [] ∅]>
  (<[AppArguments_cid :=
       Class "pydargparse.models.AppArguments"
             [AppArguments_cid; object_cid]
             [("_pydargparse_args", "dict[str, Any]");
              ("_pydargparse_sub_args",
               "dict[Type[TAppArguments], TAppArguments]")]
             {["pydargparse_get_sub_args" :=
                 VFunc "AppArguments.pydargparse_get_sub_args"]}]>
  (<[SubCommandArguments_cid :=
       Class "pydargparse.models.SubCommandArguments"
             [SubCommandArguments_cid; AppArguments_cid; object_cid]
             [("__command__", "str")] ∅]> ∅))).

(** [class name(AppArguments): ...] with the given annotations and
    namespace. *)
Definition schema_class (name : string) (annotations : list (string * string))
    (namespace : gmap string pyval) (self : cid) : class_def :=
  Class name [self; AppArguments_cid; object_cid] annotations namespace.

(** ** decorators.py *)

Module decorators.

(** A Python function as far as a positional call sees it: the parameters
    in order, each with its default if it has one, and the body as a
    function of the bound parameters. *)
Record pyfunction := Function {
  f_params : list (string * option pyval);
  f_body : list (string * pyval) → M pyval;
}.

(** Binding of positional arguments: they fill the parameters from the
    left; a parameter left over takes its default or the call fails, an
    argument left over fails the call. *)
Fixpoint bind_params (params : list (string * option pyval))
    (args : list pyval) : outcome (list (string * pyval)) :=
  match params, args with
  | [], [] => Return []
  | [], _ :: _ =>
      Raise (Exn TypeError "too many positional arguments")
  | (p, _) :: ps, a :: rest =>
      env ← bind_params ps rest; Return ((p, a) :: env)
  | (p, Some d) :: ps, [] =>
      env ← bind_params ps []; Return ((p, d) :: env)
  | (p, None) :: ps, [] =>
      Raise (Exn TypeError ("missing required positional argument: " +:+ p))
  end.

(** [f(a1, ..., an)]. *)
Definition call (f : pyfunction) (args : list pyval) : M pyval :=
  match bind_params (f_params f) args with
  | Return env => f_body f env
  | Raise e => raise e
  end.

(** [class _PostValidator]: [__init__] stores its two arguments. *)
Record _PostValidator := _PostValidator__init__ {
  fields : pyval;
  _val_f : pyfunction;
}.

(** [_PostValidator.validate]: [self._val_f(value)].  [_val_f] is an
    attribute of the instance, the call passes [value] and nothing else. *)
Definition validate (self : _PostValidator) (value : pyval) : M pyval :=
  call (_val_f self) [value].

(** [post_validator(fields)] returns the decorator. *)
Definition post_validator (fields : pyval)
    : pyfunction → _PostValidator :=
  λ external, _PostValidator__init__ fields external.

(** [_SubArgsDefinition(sub_args=..., prefix=...)]. *)
Definition _SubArgsDefinition (sub_args : cid) (prefix : option string)
    : pyval :=
  VSubArgsDefinition sub_args prefix.

(** [register_sub_args]:
    [getattr(args, "_pydargparse_sub_args").append(_SubArgsDefinition(...))]
    with [prefix=None] as the default. *)
Definition register_sub_args (ct : classes) (args sub_args : cid)
    (prefix : option string) : M unit :=
  let* target :=
    lift (λ h, getattr ct h (VType args) "_pydargparse_sub_args") in
  let* _ :=
    method_append ct target (_SubArgsDefinition sub_args prefix) in
  ret ().

End decorators.

(** ** parse.py *)

Module parse.

(** [d[k]] on a dict with string keys. *)
Definition dict_getitem (d : gmap string pyval) (k : string)
    : outcome pyval :=
  match d !! k with
  | Some v => Return v
  | None => Raise (Exn KeyError k)
  end.

(** [_get_default_args]: the signature of [func] is the list of its
    parameters, each with its default or nothing where
    [inspect.Parameter.empty] stands. *)
Definition _get_default_args (func : list (string * option pyval))
    : gmap string pyval :=
  foldl (λ acc p, match p.2 with
                  | Some v => <[p.1 := v]> acc
                  | None => acc
                  end) ∅ func.

(** [_resolve_config]; the [or] of the guard evaluates [hasattr] only
    when [config] is not [None]. *)
Definition _resolve_config (ct : classes) (h : heap_t) (arguments : cid)
    (arg_name : string) (default_values : gmap string pyval)
    : outcome pyval :=
  config ← getattr_default ct h (VType arguments) "Config" VNone;
  if is_None config then dict_getitem default_values arg_name
  else
    has ← hasattr ct h config arg_name;
    if negb has then dict_getitem default_values arg_name
    else getattr ct h config arg_name.

Section external_parser.

(** The external parsing primitive, [argparse.ArgumentParser].  Nothing
    of it is part of the package: the parser objects, the namespaces it
    returns, the signature of its constructor and the behaviour of its
    three entry points that [parse_args] calls are left open.  Each
    entry point either returns or raises; [add_argument] returns the
    parser as it is after the call. *)
Context {parser namespace : Type}.
Variable ArgumentParser__init__signature : list (string * option pyval).
Variable ArgumentParser : list (string * pyval) → outcome parser.
Variable add_argument : parser → list pyval → outcome parser.
Variable parser_parse_args :
  parser → option (list string) → outcome namespace.

(** A call to the primitive: the call is recorded, then it answers. *)
Definition external {A} (c : ext_call) (r : outcome A) : M A := λ st,
  (r, log_call c st).

(** [parse_args].  The keyword arguments of the constructor are
    evaluated in the order they are written; [enable_sub_args] is not
    read; the namespace that the parser returns is bound to [args] and
    not read either. *)
Definition parse_args (ct : classes) (arg_type : cid)
    (args : option (list string))
    (enable_sub_args : option (list string)) : M pyval :=
  let default_args := _get_default_args ArgumentParser__init__signature in
  let resolve name :=
    lift (λ h, _resolve_config ct h arg_type name default_args) in
  let* prog := resolve "prog" in
  let* usage := resolve "usage" in
  let* description := resolve "description" in
  let* epilog := resolve "epilog" in
  let* formatter_class := resolve "formatter_class" in
  let* prefix_chars := resolve "prefix_chars" in
  let* fromfile_prefix_chars := resolve "fromfile_prefix_chars" in
  let* add_help := resolve "add_help" in
  let* allow_abbrev := resolve "allow_abbrev" in
  let* exit_on_error := resolve "exit_on_error" in
  let kwargs :=
    [("prog", prog); ("usage", usage); ("description", description);
     ("epilog", epilog); ("formatter_class", formatter_class);
     ("prefix_chars", prefix_chars);
     ("fromfile_prefix_chars", fromfile_prefix_chars);
     ("add_help", add_help); ("allow_abbrev", allow_abbrev);
     ("exit_on_error", exit_on_error)] in
  let* parser :=
    external (Call_ArgumentParser kwargs) (ArgumentParser kwargs) in
  let* parser :=
    external (Call_add_argument []) (add_argument parser []) in
  let* args :=
    external (Call_parse_args args) (parser_parse_args parser args) in
  instantiate ct arg_type.

End external_parser.

End parse.

(** * Vocabulary of the properties *)

(** The three ways in which the metadata of a field is malformed. *)
Definition both_defaults (default : pyval) (default_factory : option fid)
    : Prop :=
  default ≠ Undefined ∧ default_factory ≠ None.
Definition required_false_with_default (required : option bool)
    (default : pyval) (default_factory : option fid) : Prop :=
  required = Some false ∧ (default ≠ Undefined ∨ default_factory ≠ None).
Definition requires_list_without_type (custom_type_requires_list : bool)
    (custom_type : option fid) : Prop :=
  custom_type_requires_list = true ∧ custom_type = None.

Definition raises {A} (r : outcome A) : Prop :=
  ∃ msg, r = Raise (Exn ValueError msg).

(** A method-style validator, [def validate(self, val): ...]. *)
Definition method_style (body : list (string * pyval) → M pyval)
    : decorators.pyfunction :=
  decorators.Function [("self", None); ("val", None)] body.


(** Classes of the test suite.  [Args] and [SubArgs] are the local classes
    of a test, [Config] a nested settings class. *)
Definition Args_cid : cid := 10.
Definition SubArgs_cid : cid := 11.
Definition Config_cid : cid := 12.

(** test_int: [class Args(AppArguments): test_arg: int]. *)
Definition test_int_classes : classes :=
  <[Args_cid := schema_class "tests.test_parse.Args" [("test_arg", "int")] ∅
                             Args_cid]> models_classes.

(** test_imperative_style: [SubArgs] with [test_sub_arg: str], [Args] with
    [test_arg: str]. *)
Definition test_imperative_classes : classes :=
  <[Args_cid := schema_class "tests.test_parse.Args" [("test_arg", "str")] ∅
                             Args_cid]>
  (<[SubArgs_cid := schema_class "tests.test_parse.SubArgs"
                                 [("test_sub_arg", "str")] ∅ SubArgs_cid]>
     models_classes).


(** test_alias: [test_arg: str = Argument(alias="alias_arg")].  The
    descriptor is in cell 0, named by [__set_name__] when the class is
    created; an instance is in cell 1 with its field-value mapping in
    cell 2. *)
Definition alias_descriptor : Argument.t :=
  Argument.__set_name__
    (Argument.mk (Some "alias_arg") Undefined None None None None None None
                 REPEAT_KEY false None)
    (VType Args_cid) "test_arg".

Definition test_alias_classes : classes :=
  <[Args_cid := schema_class "tests.test_parse.Args" [("test_arg", "str")]
                             {["test_arg" := VRef 0]} Args_cid]>
    models_classes.

Definition test_alias_heap : heap_t :=
  <[0 := OArgument alias_descriptor]>
  (<[1 := OInstance Args_cid {["_pydargparse_args" := VRef 2]}]>
  (<[2 := ODict {[VStr "test_arg" := VStr "some string"]}]> ∅)).

(** Successive registrations against one parent, in the order of the
    list. *)
Fixpoint register_all (ct : classes) (args : cid)
    (links : list (cid * option string)) : M unit :=
  match links with
  | [] => ret ()
  | (sub_args, prefix) :: rest =>
      let* _ := decorators.register_sub_args ct args sub_args prefix in
      register_all ct args rest
  end.

(** A parent that binds the registration list itself:
    [class Args(AppArguments): _pydargparse_sub_args = []], the list in
    cell 0. *)
Definition test_bound_list_classes : classes :=
  <[Args_cid := schema_class "tests.test_parse.Args" [("test_arg", "str")]
                             {["_pydargparse_sub_args" := VRef 0]} Args_cid]>
  (<[SubArgs_cid := schema_class "tests.test_parse.SubArgs"
                                 [("test_sub_arg", "str")] ∅ SubArgs_cid]>
     models_classes).

(** The parser-level settings that [parse_args] resolves, in the order of
    the keyword arguments it passes. *)
Definition settings : list string :=
  ["prog"; "usage"; "description"; "epilog"; "formatter_class";
   "prefix_chars"; "fromfile_prefix_chars"; "add_help"; "allow_abbrev";
   "exit_on_error"].

(** What [getattr(T, "Config")] answers. *)
Definition Config_of (ct : classes) (h : heap_t) (T : cid) : outcome pyval :=
  getattr ct h (VType T) "Config".

Definition no_attribute (r : outcome pyval) : Prop :=
  ∃ e, r = Raise e ∧ exn_type e = AttributeError.

(** The Config block of [T] defines the setting [s] with value [v]. *)
Definition Config_defines (ct : classes) (h : heap_t) (T : cid) (s : string)
    (v : pyval) : Prop :=
  ∃ config, Config_of ct h T = Return config
            ∧ config ≠ VNone
            ∧ getattr ct h config s = Return v.

(** [T] has no Config block, or the block does not define [s]. *)
Definition Config_lacks (ct : classes) (h : heap_t) (T : cid) (s : string)
    : Prop :=
  no_attribute (Config_of ct h T)
  ∨ Config_of ct h T = Return VNone
  ∨ ∃ config, Config_of ct h T = Return config
              ∧ config ≠ VNone
              ∧ no_attribute (getattr ct h config s).

(** A schema with a Config block:
    [class Args(AppArguments):
         test_arg: int
         class Config:
             prog = "tool"
             add_help = False]. *)
Definition test_config_classes : classes :=
  <[Args_cid := schema_class "tests.test_parse.Args" [("test_arg", "int")]
                             {["Config" := VType Config_cid]} Args_cid]>
  (<[Config_cid := Class "tests.test_parse.Args.Config"
                         [Config_cid; object_cid] []
                         (<["prog" := VStr "tool"]>
                            {["add_help" := VBool false]})]>
     models_classes).

(** The signature of [argparse.ArgumentParser.__init__] in CPython 3.9 to
    3.13; [HelpFormatter] is a class of argparse, the default of [parents]
    is a list object. *)
Definition HelpFormatter_cid : cid := 4.
Definition parents_default : loc := 0.

Definition argparse_signature : list (string * option pyval) :=
  [("self", None); ("prog", Some VNone); ("usage", Some VNone);
   ("description", Some VNone); ("epilog", Some VNone);
   ("parents", Some (VRef parents_default));
   ("formatter_class", Some (VType HelpFormatter_cid));
   ("prefix_chars", Some (VStr "-"));
   ("fromfile_prefix_chars", Some VNone);
   ("argument_default", Some VNone);
   ("conflict_handler", Some (VStr "error"));
   ("add_help", Some (VBool true)); ("allow_abbrev", Some (VBool true));
   ("exit_on_error", Some (VBool true))].

Definition argparse_heap : heap_t := {[parents_default := OList []]}.

(** A stand-in for the primitive: the constructor accepts any settings and
    the parser any argument vector; [add_argument] called without a name or
    a flag fails on the destination it cannot derive, as argparse's does. *)
Definition accepting_ArgumentParser (kwargs : list (string * pyval))
    : outcome (list (string * pyval)) :=
  Return kwargs.
Definition argparse_add_argument (parser : list (string * pyval))
    (args : list pyval) : outcome (list (string * pyval)) :=
  match args with
  | [] => Raise (Exn TypeError
                     "missing 1 required positional argument: 'dest'")
  | _ :: _ => Return parser
  end.
Definition accepting_parse_args (parser : list (string * pyval))
    (args : option (list string)) : outcome unit :=
  Return ().

(** test_custom_functional_post_validator: [test_arg: int =
    Argument(post_validator=validator)], the descriptor in cell 1. *)
Definition validator_descriptor (validator : fid) : Argument.t :=
  Argument.__set_name__
    (Argument.mk None Undefined None None (Some validator)
                 None None None REPEAT_KEY false None)
    (VType Args_cid) "test_arg".

Definition test_validator_classes : classes :=
  <[Args_cid := schema_class "tests.test_parse.Args" [("test_arg", "int")]
                             {["test_arg" := VRef 1]} Args_cid]>
    models_classes.

Definition test_validator_heap (validator : fid) : heap_t :=
  <[1 := OArgument (validator_descriptor validator)]> argparse_heap.

(** The two forms of the primitive's failure protocol. *)
Definition is_parse_failure (e : exn) : bool :=
  match exn_type e with
  | SystemExit | ArgumentError => true
  | _ => false
  end.

(** ** Further fixtures *)

Definition Base_cid : cid := 13.
Definition Other_cid : cid := 14.

(** A descriptor attached to a class after the class was created,
    [Args.extra = Argument()]: [__set_name__] has not run on it.  The
    descriptor is in cell 0, an instance in cell 1, its field-value mapping
    in cell 2. *)
Definition unnamed_descriptor : Argument.t :=
  Argument.mk None Undefined None None None None None None REPEAT_KEY false
              None.



(** A schema that declares a field under the name of the mapping itself,
    [_pydargparse_args: dict = Argument()]; the descriptor in cell 0, an
    instance in cell 1. *)
Definition test_loop_classes : classes :=
  <[Args_cid := schema_class "tests.test_parse.Args"
                             [("_pydargparse_args", "dict")]
                             {["_pydargparse_args" := VRef 0]} Args_cid]>
    models_classes.

Definition test_loop_heap : heap_t :=
  <[0 := OArgument (Argument.__set_name__ unnamed_descriptor
                                          (VType Args_cid)
                                          "_pydargparse_args")]>
  {[1 := OInstance Args_cid ∅]}.

(** The Config block on a base schema:
    [class Base(AppArguments):
         class Config:
             prog = "tool"
     class Args(Base):
         test_arg: int]. *)
Definition test_inherited_config_classes : classes :=
  <[Args_cid := Class "tests.test_parse.Args"
                      [Args_cid; Base_cid; AppArguments_cid; object_cid]
                      [("test_arg", "int")] ∅]>
  (<[Base_cid := schema_class "tests.test_parse.Base" []
                              {["Config" := VType Config_cid]} Base_cid]>
  (<[Config_cid := Class "tests.test_parse.Base.Config"
                         [Config_cid; object_cid] []
                         {["prog" := VStr "tool"]}]>
     models_classes)).

(** The registration list bound on a base schema, in cell 0:
    [class Base(AppArguments): _pydargparse_sub_args = []], with [Args],
    [Other] and [SubArgs] deriving from it or from [AppArguments]. *)
Definition test_shared_list_classes : classes :=
  <[Args_cid := Class "tests.test_parse.Args"
                      [Args_cid; Base_cid; AppArguments_cid; object_cid]
                      [("test_arg", "str")] ∅]>
  (<[Other_cid := Class "tests.test_parse.Other"
                        [Other_cid; Base_cid; AppArguments_cid; object_cid]
                        [("other_arg", "str")] ∅]>
  (<[Base_cid := schema_class "tests.test_parse.Base" []
                              {["_pydargparse_sub_args" := VRef 0]}
                              Base_cid]>
  (<[SubArgs_cid := schema_class "tests.test_parse.SubArgs"
                                 [("test_sub_arg", "str")] ∅ SubArgs_cid]>
     models_classes))).

(** A primitive whose [add_argument] lets the call of [parse_args]
    through. *)
Definition accepting_add_argument (parser : list (string * pyval))
    (args : list pyval) : outcome (list (string * pyval)) :=
  Return parser.

(** A positional call with one argument fits a function when it has a
    first parameter and every parameter after it has a default. *)
Definition has_default (p : string * option pyval) : bool :=
  match p.2 with
  | Some _ => true
  | None => false
  end.

Definition accepts_one_argument (f : decorators.pyfunction) : bool :=
  match decorators.f_params f with
  | [] => false
  | _ :: ps => forallb has_default ps
  end.

(** The calls that [parse_args] issues when nothing fails. *)
Definition full_trace (kwargs : list (string * pyval))
    (args : option (list string)) : list ext_call :=
  [Call_ArgumentParser kwargs; Call_add_argument []; Call_parse_args args].

(** * Properties *)

(** ** Construction of a field descriptor *)

Section Argument_construction.

Import Argument.

Lemma is_Undefined_true v : is_Undefined v = true ↔ v = Undefined.
Proof. unfold is_Undefined. apply bool_decide_eq_true. Qed.

Lemma is_Undefined_false v : is_Undefined v = false ↔ v ≠ Undefined.
Proof. unfold is_Undefined. apply bool_decide_eq_false. Qed.

Lemma is_None_opt_func o : is_None (opt_func o) = true ↔ o = None.
Proof. destruct o; simpl; split; congruence. Qed.

(** C4: construction raises (a [ValueError]) exactly when a default and a
    default factory are both declared, or [required=False] meets a
    default or a default factory, or [custom_type_requires_list] is set
    without [custom_type]; and when it does not raise, it returns the
    descriptor that holds every parameter as it was passed. *)
Theorem Argument_init_raises_iff_malformed
    (alias : option string) (default : pyval)
    (default_factory custom_type post_validator : option fid)
    (required : option bool) (help_ metavar : option string)
    (list_style : ListStyle) (custom_type_requires_list : bool) :
  let r := __init__ alias default default_factory custom_type post_validator
                    required help_ metavar list_style
                    custom_type_requires_list in
  (raises r ↔
     both_defaults default default_factory
     ∨ required_false_with_default required default default_factory
     ∨ requires_list_without_type custom_type_requires_list custom_type)
  ∧ (raises r
     ∨ r = Return (mk alias default default_factory custom_type
                      post_validator required help_ metavar list_style
                      custom_type_requires_list None)).
Proof.
  unfold __init__, raises, both_defaults, required_false_with_default,
    requires_list_without_type.
  destruct (is_Undefined default) eqn:Hd;
    [apply is_Undefined_true in Hd | apply is_Undefined_false in Hd];
    destruct default_factory as [g|], required as [[|]|],
      custom_type_requires_list, custom_type as [c|]; simpl;
    (split; [split | ]);
    try (intros [msg Hmsg]; discriminate Hmsg);
    try (intros _; eexists; reflexivity);
    try (left; eexists; reflexivity);
    try (right; reflexivity);
    try (intros _; left; split; congruence);
    try (intros _; right; left; split; [reflexivity | ]; first
           [ left; congruence | right; congruence ]);
    try (intros _; right; right; split; reflexivity);
    try (intros [[H1 H2] | [[H1 H2] | [H1 H2]]]; try congruence;
         destruct H2; congruence).
Qed.

(** C10: [None] is a declared default, the [Undefined] sentinel is not.
    With [default=None] every factory is refused, whatever the other
    parameters; [required=False] with [default=None] is refused;
    [required=False] alone, the default left at the sentinel, is
    accepted. *)
Theorem None_is_a_declared_default_Undefined_is_not :
  (∀ (g : fid) alias custom_type post_validator required help_ metavar
      list_style custom_type_requires_list,
      __init__ alias VNone (Some g) custom_type post_validator required
               help_ metavar list_style custom_type_requires_list
      = Raise err_both_defaults)
  ∧ (∀ alias custom_type post_validator help_ metavar list_style
        custom_type_requires_list,
      __init__ alias VNone None custom_type post_validator (Some false)
               help_ metavar list_style custom_type_requires_list
      = Raise err_required_false)
  ∧ __init__ None Undefined None None None (Some false) None None
             REPEAT_KEY false
    = Return (mk None Undefined None None None (Some false) None None
                 REPEAT_KEY false None)
  ∧ VNone ≠ Undefined.
Proof.
  split; [| split; [| split]]; try reflexivity; discriminate.
Qed.

End Argument_construction.

(** ** The post-validator wrapper *)

Section PostValidator.

Import decorators.

(** Called through the wrapper, a method-style validator gets one
    argument for two parameters and the call fails before its body
    runs. *)
Lemma validate_method_style fs body v st :
  validate (post_validator fs (method_style body)) v st
  = (Raise (Exn TypeError "missing required positional argument: val"), st).
Proof. reflexivity. Qed.

(** C9: the wrapper built by [post_validator(fs)(f)] keeps [fs] as its
    [fields], and [validate(v)] is the call [f(v)], with the value as the
    only argument and no instance in front of it; hence the first
    parameter of [f], the [self] of a method-style validator, is the one
    bound to the value, the parameters after it being left to their
    defaults. *)
Theorem post_validator_passes_the_value_alone
    (fs : pyval) (f : pyfunction) (v : pyval) :
  validate (post_validator fs f) v = call f [v]
  ∧ fields (post_validator fs f) = fs
  ∧ (∀ p d ps body st,
       validate (post_validator fs (Function ((p, d) :: ps) body)) v st
       = match bind_params ps [] with
         | Return env => body ((p, v) :: env) st
         | Raise e => (Raise e, st)
         end).
Proof.
  split; [reflexivity | split; [reflexivity |]].
  intros p d ps body st. unfold validate, post_validator, call. simpl.
  destruct d, (bind_params ps []); reflexivity.
Qed.

End PostValidator.

(** ** The attribute protocol on classes and instances *)

Section attribute_protocol.

Context (ct : classes).

Lemma getattr_rec_unfold depth h o name :
  getattr_rec (S depth) ct h o name
  = match o with
    | VType c =>
        match type_lookup ct c name with
        | Some v =>
            match as_Argument h v with
            | Some a =>
                Argument.__get__ (getattr_rec depth ct h) (getitem ct h)
                                 a VNone o
            | None => Return v
            end
        | None => Raise (Exn AttributeError name)
        end
    | VRef l =>
        match h !! l with
        | Some (OInstance cls d) =>
            match type_lookup ct cls name ≫= as_Argument h with
            | Some a =>
                Argument.__get__ (getattr_rec depth ct h) (getitem ct h)
                                 a o (VType cls)
            | None =>
                match d !! name with
                | Some v => Return v
                | None =>
                    match type_lookup ct cls name with
                    | Some (VFunc f) => Return (VMethod f l)
                    | Some v => Return v
                    | None => Raise (Exn AttributeError name)
                    end
                end
            end
        | Some (OArgument a) => Argument.attr a name
        | _ => Raise (Exn AttributeError name)
        end
    | VSubArgsDefinition sub_args prefix =>
        if decide (name = "sub_args") then Return (VType sub_args)
        else if decide (name = "prefix") then Return (opt_str prefix)
        else Raise (Exn AttributeError name)
    | _ => Raise (Exn AttributeError name)
    end.
Proof. reflexivity. Qed.

Lemma getattr_unfold h o name :
  getattr ct h o name = getattr_rec 2 ct h o name.
Proof. reflexivity. Qed.

Lemma getattr_rec_None depth h name :
  getattr_rec (S depth) ct h VNone name = Raise (Exn AttributeError name).
Proof. reflexivity. Qed.

(** A descriptor bound to "_pydargparse_args" itself sends the read into
    a loop, which ends at the bound whatever the bound is. *)
Lemma getattr_rec_loop depth h l cls d a :
  h !! l = Some (OInstance cls d) →
  type_lookup ct cls "_pydargparse_args" ≫= as_Argument h = Some a →
  getattr_rec depth ct h (VRef l) "_pydargparse_args"
  = Raise (Exn RecursionError "maximum recursion depth exceeded").
Proof.
  intros Hl Ha. induction depth as [| depth IH]; [reflexivity |].
  rewrite getattr_rec_unfold, Hl, Ha. unfold Argument.__get__.
  rewrite IH. reflexivity.
Qed.

Lemma getattr_rec_inner_stable depth h l :
  getattr_rec (S depth) ct h (VRef l) "_pydargparse_args"
  = getattr_rec 1 ct h (VRef l) "_pydargparse_args".
Proof.
  rewrite !getattr_rec_unfold.
  destruct (h !! l) as [[| | cls d |]|] eqn:Hl; try reflexivity.
  destruct (type_lookup ct cls "_pydargparse_args" ≫= as_Argument h)
    as [a|] eqn:Ha; [| reflexivity].
  unfold Argument.__get__.
  rewrite (getattr_rec_loop depth h l cls d a Hl Ha). reflexivity.
Qed.

(** The outcome of a read does not depend on the bound once the bound
    allows two nested calls. *)
Lemma getattr_rec_stable depth h o name :
  getattr_rec (S (S depth)) ct h o name = getattr ct h o name.
Proof.
  rewrite getattr_unfold, !getattr_rec_unfold.
  destruct o as [| | | | c | | | | | l]; try reflexivity.
  destruct (h !! l) as [[| | cls d |]|] eqn:Hl; try reflexivity.
  destruct (type_lookup ct cls name ≫= as_Argument h) as [a|];
    [| reflexivity].
  unfold Argument.__get__.
  rewrite (getattr_rec_inner_stable depth). reflexivity.
Qed.


(** An instance whose class chain binds neither the name nor a
    descriptor for it, and whose own [__dict__] lacks it, has no such
    attribute. *)
Lemma getattr_instance_missing h l cls d name :
  h !! l = Some (OInstance cls d) →
  type_lookup ct cls name = None →
  d !! name = None →
  getattr ct h (VRef l) name = Raise (Exn AttributeError name).
Proof.
  intros Hl Ht Hd.
  rewrite getattr_unfold, getattr_rec_unfold, Hl, Ht. simpl.
  by rewrite Hd.
Qed.

End attribute_protocol.

(** ** The sub-schema accessor *)

Section accessor.

Context (ct : classes).



End accessor.



(** ** Assignment to a field of an instance *)

Section assignment.

Context (ct : classes).


(** Without a descriptor on the class chain the assignment is an
    ordinary write into the instance's own [__dict__]. *)
Lemma assignment_to_plain_name_succeeds st l cls attrs f value :
  heap st !! l = Some (OInstance cls attrs) →
  type_lookup ct cls f ≫= as_Argument (heap st) = None →
  setattr ct (VRef l) f value st
  = (Return (),
     set_heap (<[l := OInstance cls (<[f := value]> attrs)]> (heap st)) st).
Proof.
  intros Hl Hf. unfold setattr. by rewrite Hl, Hf.
Qed.

End assignment.



(** ** Stateful computations *)

Section monad.

Context {A B : Type}.

Lemma bind_Return_inv (m : M A) (f : A → M B) st b st' :
  bind m f st = (Return b, st') →
  ∃ a st1, m st = (Return a, st1) ∧ f a st1 = (Return b, st').
Proof.
  unfold bind. destruct (m st) as [[a|e] st1]; [eauto | discriminate].
Qed.

Lemma bind_Return_eq (m : M A) (f : A → M B) st a st1 :
  m st = (Return a, st1) → bind m f st = f a st1.
Proof. unfold bind. by intros ->. Qed.

Lemma bind_Raise_eq (m : M A) (f : A → M B) st e st1 :
  m st = (Raise e, st1) → bind m f st = (Raise e, st1).
Proof. unfold bind. by intros ->. Qed.

Lemma lift_Return_inv (g : heap_t → outcome A) st a st' :
  lift g st = (Return a, st') → g (heap st) = Return a ∧ st' = st.
Proof. unfold lift. intros [= -> ->]. done. Qed.

End monad.

(** ** Registration of sub-schemas *)

Section registration.

Import decorators.
Context (ct : classes).

(** A parent whose class chain does not bind [_pydargparse_sub_args] has
    no registration state: the call raises and nothing is recorded. *)
Lemma register_sub_args_unbound args sub_args prefix st :
  type_lookup ct args "_pydargparse_sub_args" = None →
  register_sub_args ct args sub_args prefix st
  = (Raise (Exn AttributeError "_pydargparse_sub_args"), st).
Proof.
  intros Ht. unfold register_sub_args, bind, lift.
  rewrite getattr_unfold, getattr_rec_unfold, Ht. reflexivity.
Qed.

(** When the name is bound to a list, the call appends the link to that
    very list. *)
Lemma register_sub_args_bound_list args sub_args prefix st l xs :
  type_lookup ct args "_pydargparse_sub_args" = Some (VRef l) →
  heap st !! l = Some (OList xs) →
  register_sub_args ct args sub_args prefix st
  = (Return (),
     set_heap (<[l := OList (xs ++ [VSubArgsDefinition sub_args prefix])]>
                 (heap st)) st).
Proof.
  intros Ht Hl. unfold register_sub_args, bind, lift.
  rewrite getattr_unfold, getattr_rec_unfold, Ht.
  unfold as_Argument. rewrite Hl.
  unfold method_append. rewrite Hl. reflexivity.
Qed.

(** [n] registrations in a row leave the [n] links at the end of the
    list, in the order of the calls; what the list held before is still
    in front of them. *)
Lemma register_all_bound_list args links st l xs :
  type_lookup ct args "_pydargparse_sub_args" = Some (VRef l) →
  heap st !! l = Some (OList xs) →
  ∃ st', register_all ct args links st = (Return (), st')
         ∧ heap st' !! l
           = Some (OList (xs ++ map (λ p, VSubArgsDefinition p.1 p.2)
                                    links))
         ∧ (∀ k, k ≠ l → heap st' !! k = heap st !! k).
Proof.
  intros Ht. revert st xs.
  induction links as [| [sub_args prefix] rest IH]; intros st xs Hl.
  - exists st. cbn [register_all map]. rewrite app_nil_r. done.
  - cbn [register_all map].
    rewrite (bind_Return_eq _ _ _ _ _
               (register_sub_args_bound_list _ _ _ _ _ _ Ht Hl)).
    destruct (IH (set_heap
                    (<[l := OList (xs ++ [VSubArgsDefinition sub_args
                                                             prefix])]>
                       (heap st)) st)
                 (xs ++ [VSubArgsDefinition sub_args prefix])%list)
      as (st' & Hrun & Hlist & Hother).
    { cbn [heap set_heap]. apply lookup_insert_eq. }
    exists st'. split; [exact Hrun |]. split.
    + rewrite Hlist, <- app_assoc. reflexivity.
    + intros k Hk. rewrite (Hother k Hk). cbn [heap set_heap].
      apply lookup_insert_ne. congruence.
Qed.

End registration.

(** C3, at the input of test_imperative_style__simple: [Args] and
    [SubArgs] derive from [AppArguments], which annotates
    [_pydargparse_sub_args] and binds nothing to it;
    [register_sub_args(Args, SubArgs)] raises [AttributeError] and records
    no link. *)
Theorem register_sub_args_on_test_schema_raises :
  decorators.register_sub_args test_imperative_classes Args_cid SubArgs_cid
                               None (State ∅ [])
  = (Raise (Exn AttributeError "_pydargparse_sub_args"), State ∅ []).
Proof. vm_compute. reflexivity. Qed.

(** With the list bound by hand on the parent, two registrations land in
    it in call order. *)
Example register_twice_on_bound_list :
  (register_all test_bound_list_classes Args_cid
                [(SubArgs_cid, None); (SubArgs_cid, Some "prefix1")]
                (State {[0 := OList []]} [])).2
  = State {[0 := OList [VSubArgsDefinition SubArgs_cid None;
                        VSubArgsDefinition SubArgs_cid (Some "prefix1")]]}
          [].
Proof. vm_compute. reflexivity. Qed.

(** ** Resolution of the parser settings *)

Section config.

Import parse.
Context (ct : classes) (h : heap_t) (T : cid).



Lemma is_None_false v : v ≠ VNone → is_None v = false.
Proof. destruct v; simpl; congruence. Qed.

Lemma resolve_config_defined s v defaults :
  Config_defines ct h T s v →
  _resolve_config ct h T s defaults = Return v.
Proof.
  intros (config & Hc & Hne & Hv).
  unfold _resolve_config, getattr_default, hasattr.
  unfold Config_of in Hc. rewrite Hc.
  unfold mbind, outcome_bind. rewrite (is_None_false _ Hne), Hv.
  reflexivity.
Qed.

Lemma resolve_config_lacking s defaults :
  Config_lacks ct h T s →
  _resolve_config ct h T s defaults = dict_getitem defaults s.
Proof.
  unfold Config_lacks, Config_of, _resolve_config, getattr_default, hasattr.
  intros [(e & He & Ha) | [Hn | (config & Hc & Hne & e & He & Ha)]].
  - rewrite He. destruct (decide (exn_type e = AttributeError)); [| done].
    reflexivity.
  - rewrite Hn. reflexivity.
  - rewrite Hc. unfold mbind, outcome_bind.
    rewrite (is_None_false _ Hne), He.
    destruct (decide (exn_type e = AttributeError)); [| done].
    reflexivity.
Qed.



End config.

(** ** [parse_args] *)

Section parse_args_properties.

Import parse.
Context {parser namespace : Type}.
Context (signature : list (string * option pyval)).
Context (ArgumentParser : list (string * pyval) → outcome parser).
Context (add_argument : parser → list pyval → outcome parser).
Context (parser_parse_args :
           parser → option (list string) → outcome namespace).
Context (ct : classes).

Local Abbreviation run :=
  (parse_args signature ArgumentParser add_argument parser_parse_args ct).


Lemma external_Return_inv {A} c (r : outcome A) st a st' :
  external c r st = (Return a, st') → r = Return a ∧ st' = log_call c st.
Proof. unfold external. intros [= -> <-]. done. Qed.

Lemma instantiate_Return_inv c st v st' :
  instantiate ct c st = (Return v, st') →
  v = VRef (fresh (dom (heap st)))
  ∧ st' = set_heap (<[fresh (dom (heap st)) := OInstance c ∅]> (heap st)) st.
Proof.
  unfold instantiate.
  destruct (type_lookup ct c "__new__"), (type_lookup ct c "__init__");
    intros [= <- <-]; done.
Qed.

(** Whatever the primitive does, a call that returns has returned
    [arg_type()]: a new instance with an empty [__dict__], the heap being
    otherwise what it was.  Neither the argument vector nor the namespace
    produced by the primitive has any part in it. *)
Lemma parse_args_returns_fresh_instance arg_type args enable_sub_args
    st v st' :
  run arg_type args enable_sub_args st = (Return v, st') →
  v = VRef (fresh (dom (heap st)))
  ∧ heap st'
    = <[fresh (dom (heap st)) := OInstance arg_type ∅]> (heap st).
Proof.
  unfold parse_args. intros H.
  do 10 (apply bind_Return_inv in H as (? & ? & Hstep & H);
         apply lift_Return_inv in Hstep as [_ ->]).
  do 3 (apply bind_Return_inv in H as (? & ? & Hstep & H);
        apply external_Return_inv in Hstep as [_ ->]).
  apply instantiate_Return_inv in H as [-> ->]. done.
Qed.



End parse_args_properties.


(** The settings that reach the constructor for the schema with a Config
    block: [prog] and [add_help] come from the block, the others from the
    signature. *)
Example parser_kwargs_of_test_config :
  calls (parse.parse_args argparse_signature accepting_ArgumentParser
           argparse_add_argument accepting_parse_args test_config_classes
           Args_cid (Some ["--test-arg"; "10"]) None
           (State argparse_heap [])).2
  = [Call_ArgumentParser
       [("prog", VStr "tool"); ("usage", VNone); ("description", VNone);
        ("epilog", VNone); ("formatter_class", VType HelpFormatter_cid);
        ("prefix_chars", VStr "-"); ("fromfile_prefix_chars", VNone);
        ("add_help", VBool false); ("allow_abbrev", VBool true);
        ("exit_on_error", VBool true)];
     Call_add_argument []].
Proof. vm_compute. reflexivity. Qed.

Section parse_args_on_the_tests.

Context {parser namespace : Type}.
Context (signature : list (string * option pyval)).
Context (ArgumentParser : list (string * pyval) → outcome parser).
Context (add_argument : parser → list pyval → outcome parser).
Context (parser_parse_args :
           parser → option (list string) → outcome namespace).

Local Abbreviation run :=
  (parse.parse_args signature ArgumentParser add_argument
                    parser_parse_args).

(** C1, on the schema of test_int ([test_arg: int]): whatever the
    primitive answers and whatever the argument vector and the state are,
    a call that returns has returned an instance without a field-value
    mapping and without a [test_arg] attribute; no value of the argument
    vector is held by it. *)
Theorem parse_args_test_int_holds_no_value
    (args : option (list string)) (st : state) :
  match run test_int_classes Args_cid args None st with
  | (Return v, st') =>
      getattr test_int_classes (heap st') v "_pydargparse_args"
      = Raise (Exn AttributeError "_pydargparse_args")
      ∧ getattr test_int_classes (heap st') v "test_arg"
        = Raise (Exn AttributeError "test_arg")
  | (Raise _, _) => True
  end.
Proof.
  destruct (run test_int_classes Args_cid args None st)
    as [[v|e] st'] eqn:H; [| exact I].
  apply parse_args_returns_fresh_instance in H as [-> Hh]. rewrite Hh.
  split; apply (getattr_instance_missing _ _ _ Args_cid ∅);
    first [apply lookup_insert_eq | apply lookup_empty
          | vm_compute; reflexivity].
Qed.

(** C7, on the schema of test_custom_functional_post_validator
    ([test_arg: int = Argument(post_validator=validator)]): whatever the
    validator and the primitive are, a call that returns has returned an
    instance on which reading [test_arg] fails, the descriptor finding no
    field-value mapping; the validator has produced no stored value. *)
Theorem parse_args_stores_no_validated_value
    (validator : fid) (args : option (list string)) :
  match run test_validator_classes Args_cid args None
            (State (test_validator_heap validator) []) with
  | (Return v, st') =>
      getattr test_validator_classes (heap st') v "test_arg"
      = Raise (Exn AttributeError "_pydargparse_args")
  | (Raise _, _) => True
  end.
Proof.
  destruct (run test_validator_classes Args_cid args None
                (State (test_validator_heap validator) []))
    as [[v|e] st'] eqn:H; [| exact I].
  apply parse_args_returns_fresh_instance in H as [-> Hh]. rewrite Hh.
  vm_compute. reflexivity.
Qed.

End parse_args_on_the_tests.

(** C2, on the schema and the argument vector of test_int, with a
    primitive that accepts the settings and refuses [add_argument()] as
    argparse does: the call ends in that [TypeError], after the constructor
    and [add_argument] have been called and before any argument is parsed.
    The outcome is neither an instance nor the primitive's failure
    protocol. *)
Theorem parse_args_lets_TypeError_escape :
  parse.parse_args argparse_signature accepting_ArgumentParser
    argparse_add_argument accepting_parse_args test_int_classes Args_cid
    (Some ["--test-arg"; "10"]) None (State argparse_heap [])
  = (Raise (Exn TypeError "missing 1 required positional argument: 'dest'"),
     State argparse_heap
       [Call_ArgumentParser
          [("prog", VNone); ("usage", VNone); ("description", VNone);
           ("epilog", VNone); ("formatter_class", VType HelpFormatter_cid);
           ("prefix_chars", VStr "-"); ("fromfile_prefix_chars", VNone);
           ("add_help", VBool true); ("allow_abbrev", VBool true);
           ("exit_on_error", VBool true)];
        Call_add_argument []])
  ∧ is_parse_failure
      (Exn TypeError "missing 1 required positional argument: 'dest'")
    = false.
Proof. split; vm_compute; reflexivity. Qed.

(** * Further properties of the code *)

(** ** Reading a field through its descriptor *)

Section descriptor_reads.

Context (ct : classes).

(** X1: on an instance that carries its field-value mapping, reading a
    field that the class chain binds to a descriptor yields what the
    mapping holds under the name that [__set_name__] gave the descriptor;
    when the mapping has no such key the read raises [KeyError].  The alias
    of the descriptor plays no part. *)
Theorem descriptor_field_reads_mapping_under_its_name
    (h : heap_t) (l : loc) (cls : cid) (attrs : gmap string pyval)
    (f : string) (a : Argument.t) (n : string) (d : loc)
    (m : gmap pyval pyval) :
  h !! l = Some (OInstance cls attrs) →
  type_lookup ct cls f ≫= as_Argument h = Some a →
  Argument._name a = Some n →
  getattr ct h (VRef l) "_pydargparse_args" = Return (VRef d) →
  h !! d = Some (ODict m) →
  getattr ct h (VRef l) f
  = match m !! VStr n with
    | Some v => Return v
    | None => Raise (Exn KeyError n)
    end.
Proof.
  intros Hl Ha Hn Hargs Hd.
  rewrite getattr_unfold, (getattr_rec_inner_stable ct 1) in Hargs.
  rewrite getattr_unfold, getattr_rec_unfold, Hl, Ha.
  unfold Argument.__get__.
  rewrite Hargs, Hn.
  unfold mbind, outcome_bind, getitem. rewrite Hd.
  reflexivity.
Qed.

(** X2: read on the class itself, a field bound to a descriptor raises
    [AttributeError], the descriptor being asked with [None] for the
    instance; [hasattr] on the class therefore answers [False]. *)
Theorem descriptor_field_on_class_raises
    (h : heap_t) (c : cid) (f : string) (v : pyval) (a : Argument.t) :
  type_lookup ct c f = Some v →
  as_Argument h v = Some a →
  getattr ct h (VType c) f = Raise (Exn AttributeError "_pydargparse_args")
  ∧ hasattr ct h (VType c) f = Return false.
Proof.
  intros Hf Ha.
  assert (Hget : getattr ct h (VType c) f
                 = Raise (Exn AttributeError "_pydargparse_args")).
  { rewrite getattr_unfold, getattr_rec_unfold, Hf, Ha.
    unfold Argument.__get__. rewrite getattr_rec_None. reflexivity. }
  split; [exact Hget |]. unfold hasattr. rewrite Hget. reflexivity.
Qed.


(** X4: when the class chain binds the name ["_pydargparse_args"] itself
    to a descriptor, the read of the mapping calls [__get__], which reads
    the mapping again, without end; every read of a descriptor field of
    such an instance ends in [RecursionError]. *)
Theorem descriptor_named_as_the_mapping_loops
    (h : heap_t) (l : loc) (cls : cid) (attrs : gmap string pyval)
    (a b : Argument.t) (f : string) :
  h !! l = Some (OInstance cls attrs) →
  type_lookup ct cls "_pydargparse_args" ≫= as_Argument h = Some a →
  type_lookup ct cls f ≫= as_Argument h = Some b →
  getattr ct h (VRef l) f
  = Raise (Exn RecursionError "maximum recursion depth exceeded").
Proof.
  intros Hl Ha Hb.
  rewrite getattr_unfold, getattr_rec_unfold, Hl, Hb.
  unfold Argument.__get__.
  rewrite (getattr_rec_loop ct 1 h l cls attrs a Hl Ha). reflexivity.
Qed.

End descriptor_reads.

Lemma descriptor_field_reads_mapping_witness :
  getattr test_alias_classes test_alias_heap (VRef 1) "test_arg"
  = Return (VStr "some string").
Proof.
  refine (eq_trans
            (descriptor_field_reads_mapping_under_its_name test_alias_classes
               test_alias_heap 1 Args_cid {["_pydargparse_args" := VRef 2]}
               "test_arg" alias_descriptor "test_arg" 2
               {[VStr "test_arg" := VStr "some string"]} _ _ _ _ _) _);
    vm_compute; reflexivity.
Defined.

Lemma descriptor_field_on_class_witness :
  getattr test_alias_classes test_alias_heap (VType Args_cid) "test_arg"
  = Raise (Exn AttributeError "_pydargparse_args")
  ∧ hasattr test_alias_classes test_alias_heap (VType Args_cid) "test_arg"
    = Return false.
Proof.
  apply (descriptor_field_on_class_raises test_alias_classes test_alias_heap
           Args_cid "test_arg" (VRef 0) alias_descriptor);
    vm_compute; reflexivity.
Defined.


Lemma descriptor_named_as_the_mapping_witness :
  getattr test_loop_classes test_loop_heap (VRef 1) "_pydargparse_args"
  = Raise (Exn RecursionError "maximum recursion depth exceeded").
Proof.
  apply (descriptor_named_as_the_mapping_loops test_loop_classes
           test_loop_heap 1 Args_cid ∅
           (Argument.__set_name__ unnamed_descriptor (VType Args_cid)
                                  "_pydargparse_args")
           (Argument.__set_name__ unnamed_descriptor (VType Args_cid)
                                  "_pydargparse_args")
           "_pydargparse_args");
    vm_compute; reflexivity.
Defined.

(** ** Which check of the constructor reports *)

Section Argument_precedence.

Import Argument.

(** X5: the three checks are met in order and the first that fails
    decides the message: the conflict of [default] with [default_factory]
    is reported whenever it is there; the [required=False] message only
    when exactly a default or a factory is declared; the
    [custom_type_requires_list] message only when the first two checks
    pass. *)
Theorem Argument_init_reports_first_failed_check
    (alias : option string) (default : pyval)
    (default_factory custom_type post_validator : option fid)
    (required : option bool) (help_ metavar : option string)
    (list_style : ListStyle) (custom_type_requires_list : bool) :
  let r := __init__ alias default default_factory custom_type post_validator
                    required help_ metavar list_style
                    custom_type_requires_list in
  (r = Raise err_both_defaults ↔ both_defaults default default_factory)
  ∧ (r = Raise err_required_false ↔
       ¬ both_defaults default default_factory
       ∧ required_false_with_default required default default_factory)
  ∧ (r = Raise err_requires_list ↔
       ¬ both_defaults default default_factory
       ∧ ¬ required_false_with_default required default default_factory
       ∧ requires_list_without_type custom_type_requires_list custom_type).
Proof.
  unfold __init__, both_defaults, required_false_with_default,
    requires_list_without_type.
  destruct (is_Undefined default) eqn:Hd;
    [apply is_Undefined_true in Hd | apply is_Undefined_false in Hd];
    destruct default_factory as [g|], required as [[|]|],
      custom_type_requires_list, custom_type as [c|]; simpl;
    unfold err_both_defaults, err_required_false, err_requires_list;
    (split; [| split]); (split; [intros H; try discriminate H | intros H]);
    try reflexivity;
    try (split; congruence);
    try (split; [| split]; [| | split; reflexivity]);
    try (intuition congruence).
Qed.

End Argument_precedence.

(** ** When the wrapped validator runs *)

Section validate_binding.

Import decorators.

Lemma bind_params_defaults ps :
  forallb has_default ps = true →
  ∃ env, bind_params ps [] = Return env ∧ env.*1 = ps.*1.
Proof.
  induction ps as [| [p [d|]] ps IH]; simpl; intros H.
  - exists []. done.
  - destruct (IH H) as (env & -> & Hn).
    exists ((p, d) :: env). split; [reflexivity |].
    rewrite !fmap_cons. f_equal. exact Hn.
  - discriminate H.
Qed.

Lemma bind_params_no_default ps :
  forallb has_default ps = false →
  ∃ msg, bind_params ps [] = Raise (Exn TypeError msg).
Proof.
  induction ps as [| [p [d|]] ps IH]; simpl; intros H.
  - discriminate H.
  - destruct (IH H) as (msg & ->). exists msg. reflexivity.
  - eexists. reflexivity.
Qed.

(** X6: [validate] runs the body of the wrapped function exactly when the
    function takes a single positional argument, that is when it has a
    first parameter and every later parameter has a default; the body then
    sees the value under the first parameter.  Otherwise the call raises
    [TypeError], the body is not run and the state is untouched. *)
Theorem validate_runs_body_iff_one_argument_fits
    (fs : pyval) (f : pyfunction) (v : pyval) (st : state) :
  if accepts_one_argument f
  then ∃ p env, validate (post_validator fs f) v st
                = f_body f ((p, v) :: env) st
                ∧ p :: env.*1 = (f_params f).*1
  else ∃ msg, validate (post_validator fs f) v st
              = (Raise (Exn TypeError msg), st).
Proof.
  unfold accepts_one_argument, validate, post_validator, call.
  cbn [_val_f].
  destruct (f_params f) as [| [p d] ps] eqn:Hp.
  - eexists. reflexivity.
  - assert (Hstep : bind_params ((p, d) :: ps) [v]
                    = env ← bind_params ps []; Return ((p, v) :: env)).
    { destruct d; reflexivity. }
    rewrite Hstep.
    destruct (forallb has_default ps) eqn:Hps.
    + destruct (bind_params_defaults ps Hps) as (env & Henv & Hn).
      exists p, env. rewrite Henv, !fmap_cons, Hn. split; reflexivity.
    + destruct (bind_params_no_default ps Hps) as (msg & Hmsg).
      exists msg. rewrite Hmsg. reflexivity.
Qed.

End validate_binding.

(** ** The defaults of a signature and the resolution of one setting *)

Section defaults.

Import parse.

Local Abbreviation keep_default :=
  (λ (acc : gmap string pyval) (p : string * option pyval),
     match p.2 with
     | Some v => <[p.1 := v]> acc
     | None => acc
     end).

Lemma foldl_keep_default_other (func : list (string * option pyval))
    (acc : gmap string pyval) (k : string) :
  k ∉ func.*1 → foldl keep_default acc func !! k = acc !! k.
Proof.
  revert acc. induction func as [| [k0 d0] func IH]; intros acc Hk;
    [reflexivity |].
  cbn [foldl]. rewrite fmap_cons in Hk.
  apply not_elem_of_cons in Hk as [Hk0 Hk]. cbn [fst] in Hk0.
  rewrite (IH _ Hk). cbn [fst snd].
  destruct d0; [| reflexivity]. apply lookup_insert_ne. congruence.
Qed.

Lemma foldl_keep_default_listed (func : list (string * option pyval))
    (acc : gmap string pyval) (k : string) (d : option pyval) :
  NoDup func.*1 →
  (k, d) ∈ func →
  foldl keep_default acc func !! k
  = match d with
    | Some w => Some w
    | None => acc !! k
    end.
Proof.
  revert acc. induction func as [| [k0 d0] func IH]; intros acc Hnd Hk.
  - by apply elem_of_nil in Hk.
  - cbn [foldl]. rewrite fmap_cons in Hnd.
    apply NoDup_cons in Hnd as [Hk0 Hnd]. cbn [fst] in Hk0.
    apply elem_of_cons in Hk as [[= <- <-] | Hk].
    + rewrite (foldl_keep_default_other _ _ _ Hk0). cbn [fst snd].
      destruct d; [apply lookup_insert_eq | reflexivity].
    + rewrite (IH _ Hnd Hk). destruct d as [w|]; [reflexivity |].
      cbn [fst snd]. destruct d0 as [w0|]; [| reflexivity].
      apply lookup_insert_ne. intros ->. apply Hk0.
      apply (list_elem_of_fmap_2 fst) in Hk. exact Hk.
Qed.

(** X7: for a signature whose parameter names are distinct, the dict that
    [_get_default_args] builds maps a name to a value exactly when the
    signature lists the parameter with that default; a parameter without a
    default, like a name that is no parameter, is not a key. *)
Theorem get_default_args_holds_exactly_the_defaults
    (func : list (string * option pyval)) (k : string) (v : pyval) :
  NoDup func.*1 →
  (_get_default_args func !! k = Some v ↔ (k, Some v) ∈ func)
  ∧ ((k, None) ∈ func → _get_default_args func !! k = None)
  ∧ (k ∉ func.*1 → _get_default_args func !! k = None).
Proof.
  intros Hnd. unfold _get_default_args.
  split; [| split].
  - split.
    + intros Hl. destruct (decide (k ∈ func.*1)) as [Hk | Hk].
      * apply list_elem_of_fmap in Hk as ([k' d] & Hk' & Hkd).
        cbn [fst] in Hk'. subst k'.
        rewrite (foldl_keep_default_listed _ _ _ _ Hnd Hkd) in Hl.
        destruct d as [w|].
        -- injection Hl as ->. exact Hkd.
        -- rewrite lookup_empty in Hl. discriminate Hl.
      * rewrite (foldl_keep_default_other _ _ _ Hk), lookup_empty in Hl.
        discriminate Hl.
    + intros Hkd. apply (foldl_keep_default_listed _ _ _ _ Hnd Hkd).
  - intros Hkd. rewrite (foldl_keep_default_listed _ _ _ _ Hnd Hkd).
    apply lookup_empty.
  - intros Hk. rewrite (foldl_keep_default_other _ _ _ Hk).
    apply lookup_empty.
Qed.

End defaults.

Lemma get_default_args_witness :
  (parse._get_default_args argparse_signature !! "prefix_chars"
   = Some (VStr "-")
   ↔ ("prefix_chars", Some (VStr "-")) ∈ argparse_signature)
  ∧ (("self", None) ∈ argparse_signature →
     parse._get_default_args argparse_signature !! "self" = None)
  ∧ ("color" ∉ argparse_signature.*1 →
     parse._get_default_args argparse_signature !! "color" = None).
Proof.
  destruct (get_default_args_holds_exactly_the_defaults argparse_signature
              "prefix_chars" (VStr "-")) as (H1 & _).
  { apply (bool_decide_unpack _). vm_compute. exact I. }
  destruct (get_default_args_holds_exactly_the_defaults argparse_signature
              "self" VNone) as (_ & H2 & _).
  { apply (bool_decide_unpack _). vm_compute. exact I. }
  destruct (get_default_args_holds_exactly_the_defaults argparse_signature
              "color" VNone) as (_ & _ & H3).
  { apply (bool_decide_unpack _). vm_compute. exact I. }
  exact (conj H1 (conj H2 H3)).
Defined.

Section one_setting.

Import parse.
Context (ct : classes) (h : heap_t).

(** X8: when the schema has no Config block, or the block does not define
    the setting, and the defaults have no entry for it either, the
    resolution raises [KeyError] for the name of the setting. *)
Theorem resolve_config_without_default_raises_KeyError
    (T : cid) (s : string) (defaults : gmap string pyval) :
  Config_lacks ct h T s →
  defaults !! s = None →
  _resolve_config ct h T s defaults = Raise (Exn KeyError s).
Proof.
  intros Hl Hd. rewrite (resolve_config_lacking ct h T s defaults Hl).
  unfold dict_getitem. rewrite Hd. reflexivity.
Qed.

(** X9: the Config block and its settings are found along the class
    chains: when the nearest binding of ["Config"] on the chain of the
    schema is a class and the nearest binding of the setting on the chain
    of that class is a plain value, the resolution returns this value and
    does not consult the defaults. *)
Theorem resolve_config_follows_the_class_chains
    (T c : cid) (s : string) (v : pyval) (defaults : gmap string pyval) :
  type_lookup ct T "Config" = Some (VType c) →
  type_lookup ct c s = Some v →
  as_Argument h v = None →
  _resolve_config ct h T s defaults = Return v.
Proof.
  intros HT Hs Hv. apply resolve_config_defined.
  exists (VType c). unfold Config_of.
  split; [| split; [discriminate |]].
  - rewrite getattr_unfold, getattr_rec_unfold, HT. reflexivity.
  - rewrite getattr_unfold, getattr_rec_unfold, Hs, Hv. reflexivity.
Qed.

End one_setting.

Lemma resolve_config_without_default_witness :
  parse._resolve_config test_int_classes ∅ Args_cid "prog" ∅
  = Raise (Exn KeyError "prog").
Proof.
  apply (resolve_config_without_default_raises_KeyError test_int_classes ∅
           Args_cid "prog" ∅).
  - left. eexists. split; vm_compute; reflexivity.
  - apply lookup_empty.
Defined.

Lemma resolve_config_follows_the_class_chains_witness :
  parse._resolve_config test_inherited_config_classes ∅ Args_cid "prog" ∅
  = Return (VStr "tool").
Proof.
  apply (resolve_config_follows_the_class_chains
           test_inherited_config_classes ∅ Args_cid Config_cid "prog"
           (VStr "tool") ∅);
    vm_compute; reflexivity.
Defined.

(** ** What registration does to the state *)

Section registration_state.

Import decorators.
Context (ct : classes).

(** X10: when the class chain of the parent binds
    ["_pydargparse_sub_args"] to a list, successive registrations all
    succeed and leave their links at the end of that list in the order of
    the calls, behind what the list held; no other cell of the heap
    changes and nothing is ever removed. *)
Theorem registrations_accumulate_in_call_order
    (args : cid) (links : list (cid * option string)) (st : state) (l : loc)
    (xs : list pyval) :
  type_lookup ct args "_pydargparse_sub_args" = Some (VRef l) →
  heap st !! l = Some (OList xs) →
  ∃ st', register_all ct args links st = (Return (), st')
         ∧ heap st' !! l
           = Some (OList (xs ++ map (λ p, VSubArgsDefinition p.1 p.2) links))
         ∧ (∀ k, k ≠ l → heap st' !! k = heap st !! k)
         ∧ calls st' = calls st.
Proof.
  intros Ht. revert st xs.
  induction links as [| [sub_args prefix] rest IH]; intros st xs Hl.
  - exists st. cbn [register_all map]. rewrite app_nil_r. done.
  - cbn [register_all map].
    rewrite (bind_Return_eq _ _ _ _ _
               (register_sub_args_bound_list ct _ _ _ _ _ _ Ht Hl)).
    destruct (IH (set_heap
                    (<[l := OList (xs ++ [VSubArgsDefinition sub_args
                                                             prefix])]>
                       (heap st)) st)
                 (xs ++ [VSubArgsDefinition sub_args prefix])%list)
      as (st' & Hrun & Hlist & Hother & Hcalls).
    { cbn [heap set_heap]. apply lookup_insert_eq. }
    exists st'. split; [exact Hrun |]. split; [| split].
    + rewrite Hlist, <- app_assoc. reflexivity.
    + intros k Hk. rewrite (Hother k Hk). cbn [heap set_heap].
      apply lookup_insert_ne. congruence.
    + exact Hcalls.
Qed.

(** X11: the registration state is not keyed by the parent: two schema
    types whose class chains reach the same list share it, and a link
    registered against one is among the links of the other. *)
Theorem registration_list_is_shared_along_the_class_chain
    (P Q C : cid) (prefix : option string) (st : state) (l : loc)
    (xs : list pyval) :
  type_lookup ct P "_pydargparse_sub_args" = Some (VRef l) →
  type_lookup ct Q "_pydargparse_sub_args" = Some (VRef l) →
  heap st !! l = Some (OList xs) →
  ∃ st', register_sub_args ct P C prefix st = (Return (), st')
         ∧ getattr ct (heap st') (VType Q) "_pydargparse_sub_args"
           = Return (VRef l)
         ∧ heap st' !! l
           = Some (OList (xs ++ [VSubArgsDefinition C prefix])).
Proof.
  intros HP HQ Hl. eexists. split; [| split].
  - apply (register_sub_args_bound_list ct P C prefix st l xs HP Hl).
  - cbn [heap set_heap].
    rewrite getattr_unfold, getattr_rec_unfold, HQ.
    unfold as_Argument. rewrite lookup_insert_eq. reflexivity.
  - cbn [heap set_heap]. apply lookup_insert_eq.
Qed.

(** X12: bound to a dict, as the annotation on [AppArguments] has it, the
    registration state cannot take a link: the call raises
    [AttributeError] for [append] and the state is what it was. *)
Theorem register_sub_args_on_a_dict_raises
    (P C : cid) (prefix : option string) (st : state) (l : loc)
    (m : gmap pyval pyval) :
  type_lookup ct P "_pydargparse_sub_args" = Some (VRef l) →
  heap st !! l = Some (ODict m) →
  register_sub_args ct P C prefix st
  = (Raise (Exn AttributeError "append"), st).
Proof.
  intros HP Hl. unfold register_sub_args, bind, lift.
  rewrite getattr_unfold, getattr_rec_unfold, HP.
  unfold as_Argument. rewrite Hl.
  unfold method_append. rewrite Hl.
  rewrite getattr_unfold, getattr_rec_unfold, Hl. reflexivity.
Qed.


(** X14: the list that [register_sub_args] needs and the mapping that the
    accessor reads go by the same attribute name.  Where the class binds
    the list and the instance has no mapping of its own, registration
    succeeds and the accessor, asked for the type just registered, indexes
    the list with a class: [TypeError] escapes, not the lookup error. *)
Theorem accessor_after_registration_raises_TypeError
    (P C : cid) (prefix : option string) (st : state) (l i : loc)
    (xs : list pyval) (attrs : gmap string pyval) :
  type_lookup ct P "_pydargparse_sub_args" = Some (VRef l) →
  heap st !! l = Some (OList xs) →
  heap st !! i = Some (OInstance P attrs) →
  attrs !! "_pydargparse_sub_args" = None →
  ∃ st', register_sub_args ct P C prefix st = (Return (), st')
         ∧ pydargparse_get_sub_args ct (heap st') (VRef i) C
           = Raise (Exn TypeError "list indices must be integers").
Proof.
  intros HP Hl Hi Hattrs. eexists. split.
  - apply (register_sub_args_bound_list ct P C prefix st l xs HP Hl).
  - cbn [heap set_heap].
    assert (Hne : l ≠ i) by (intros ->; rewrite Hl in Hi; discriminate Hi).
    unfold pydargparse_get_sub_args.
    rewrite getattr_unfold, getattr_rec_unfold.
    rewrite lookup_insert_ne by exact Hne. rewrite Hi, HP.
    cbn [mbind option_bind as_Argument]. rewrite lookup_insert_eq, Hattrs.
    unfold mbind, outcome_bind, getitem. rewrite lookup_insert_eq.
    reflexivity.
Qed.

End registration_state.

Lemma registrations_accumulate_witness :
  ∃ st', register_all test_bound_list_classes Args_cid
                      [(SubArgs_cid, None); (SubArgs_cid, Some "prefix1")]
                      (State {[0 := OList []]} []) = (Return (), st')
         ∧ heap st' !! 0
           = Some (OList ([] ++ map (λ p, VSubArgsDefinition p.1 p.2)
                                    [(SubArgs_cid, None);
                                     (SubArgs_cid, Some "prefix1")]))
         ∧ (∀ k, k ≠ 0 → heap st' !! k
                         = heap (State {[0 := OList []]} []) !! k)
         ∧ calls st' = calls (State {[0 := OList []]} []).
Proof.
  apply (registrations_accumulate_in_call_order test_bound_list_classes
           Args_cid [(SubArgs_cid, None); (SubArgs_cid, Some "prefix1")]
           (State {[0 := OList []]} []) 0 []);
    vm_compute; reflexivity.
Defined.

Lemma registration_list_is_shared_witness :
  ∃ st', decorators.register_sub_args test_shared_list_classes Args_cid
           SubArgs_cid None (State {[0 := OList []]} []) = (Return (), st')
         ∧ getattr test_shared_list_classes (heap st') (VType Other_cid)
                   "_pydargparse_sub_args" = Return (VRef 0)
         ∧ heap st' !! 0
           = Some (OList ([] ++ [VSubArgsDefinition SubArgs_cid None])).
Proof.
  apply (registration_list_is_shared_along_the_class_chain
           test_shared_list_classes Args_cid Other_cid SubArgs_cid None
           (State {[0 := OList []]} []) 0 []);
    vm_compute; reflexivity.
Defined.

Lemma register_sub_args_on_a_dict_witness :
  decorators.register_sub_args test_bound_list_classes Args_cid SubArgs_cid
                               None (State {[0 := ODict ∅]} [])
  = (Raise (Exn AttributeError "append"), State {[0 := ODict ∅]} []).
Proof.
  apply (register_sub_args_on_a_dict_raises test_bound_list_classes Args_cid
           SubArgs_cid None (State {[0 := ODict ∅]} []) 0 ∅);
    vm_compute; reflexivity.
Defined.

Lemma accessor_after_registration_witness :
  ∃ st', decorators.register_sub_args test_bound_list_classes Args_cid
           SubArgs_cid None
           (State (<[1 := OInstance Args_cid ∅]> {[0 := OList []]}) [])
         = (Return (), st')
         ∧ pydargparse_get_sub_args test_bound_list_classes (heap st')
                                    (VRef 1) SubArgs_cid
           = Raise (Exn TypeError "list indices must be integers").
Proof.
  apply (accessor_after_registration_raises_TypeError
           test_bound_list_classes Args_cid SubArgs_cid None
           (State (<[1 := OInstance Args_cid ∅]> {[0 := OList []]}) [])
           0 1 [] ∅);
    vm_compute; reflexivity.
Defined.

(** ** The course of a call to [parse_args] *)

Section parse_args_course.

Import parse.
Context {parser namespace : Type}.
Context (signature : list (string * option pyval)).
Context (ArgumentParser : list (string * pyval) → outcome parser).
Context (add_argument : parser → list pyval → outcome parser).
Context (parser_parse_args :
           parser → option (list string) → outcome namespace).
Context (ct : classes).

Local Abbreviation run :=
  (parse_args signature ArgumentParser add_argument parser_parse_args ct).


(** X16: the calls that [parse_args] issues to the primitive are a prefix
    of: the constructor, with one keyword per setting, then
    [add_argument()] without any argument, then [parse_args] with the
    argument vector as it was passed.  Each is issued at most once, in this
    order, and a call that returns has issued all three. *)
Theorem parse_args_calls_the_primitive_in_order
    (arg_type : cid) (args enable_sub_args : option (list string))
    (st : state) :
  ∃ kwargs trace,
    calls (run arg_type args enable_sub_args st).2
    = (calls st ++ trace)%list
    ∧ trace `prefix_of` full_trace kwargs args
    ∧ kwargs.*1 = settings
    ∧ match (run arg_type args enable_sub_args st).1 with
      | Return _ => trace = full_trace kwargs args
      | Raise _ => True
      end.
Proof.
  unfold parse_args, bind, lift, external.
  repeat match goal with
         | |- context [_resolve_config ?a ?b ?c ?s ?d] =>
             destruct (_resolve_config a b c s d);
               [| exists (map (λ x, (x, VNone)) settings), [];
                  cbn [fst snd]; rewrite app_nil_r;
                  split; [reflexivity |];
                  split; [apply prefix_nil |];
                  split; [reflexivity | exact I] ]
         end.
  match goal with
  | |- context [ArgumentParser ?kw] =>
      exists kw; destruct (ArgumentParser kw) as [p|]
  end.
  2: { eexists. cbn [fst snd calls log_call].
       split; [reflexivity |].
       split; [by eexists |]. split; [reflexivity | exact I]. }
  destruct (add_argument p []) as [p'|].
  2: { eexists. cbn [fst snd calls log_call heap].
       split; [rewrite <- app_assoc; reflexivity |].
       split; [by eexists |]. split; [reflexivity | exact I]. }
  destruct (parser_parse_args p' args) as [ns|].
  2: { eexists. cbn [fst snd calls log_call heap].
       split; [rewrite <- !app_assoc; reflexivity |].
       split; [by exists [] |]. split; [reflexivity | exact I]. }
  eexists. unfold instantiate, full_trace.
  destruct (type_lookup ct arg_type "__new__"),
    (type_lookup ct arg_type "__init__");
    cbn [fst snd calls log_call heap set_heap];
    (split; [rewrite <- !app_assoc; reflexivity |]);
    (split; [by exists [] |]); (split; [reflexivity |]);
    first [reflexivity | exact I].
Qed.

(** X17: the settings are all resolved before the primitive is touched:
    when the resolution of any one of them raises, [parse_args] raises
    with the state as it was, no parser having been constructed. *)
Theorem parse_args_resolves_before_any_call
    (arg_type : cid) (args enable_sub_args : option (list string))
    (st : state) (s : string) (e : exn) :
  s ∈ settings →
  _resolve_config ct (heap st) arg_type s (_get_default_args signature)
  = Raise e →
  ∃ e', run arg_type args enable_sub_args st = (Raise e', st).
Proof.
  intros Hs He. unfold parse_args, bind, lift.
  repeat match goal with
         | |- context [_resolve_config ?a ?b ?c ?s ?d] =>
             let E := fresh "E" in
             destruct (_resolve_config a b c s d) eqn:E;
               [| eexists; reflexivity ]
         end.
  exfalso. unfold settings in Hs.
  repeat (apply elem_of_cons in Hs as [-> | Hs]; [congruence |]).
  by apply elem_of_nil in Hs.
Qed.


End parse_args_course.

Lemma parse_args_resolves_before_any_call_witness :
  ∃ e', parse.parse_args [] accepting_ArgumentParser accepting_add_argument
          accepting_parse_args test_int_classes Args_cid
          (Some ["--test-arg"; "10"]) None (State ∅ [])
        = (Raise e', State ∅ []).
Proof.
  apply (parse_args_resolves_before_any_call [] accepting_ArgumentParser
           accepting_add_argument accepting_parse_args test_int_classes
           Args_cid (Some ["--test-arg"; "10"]) None (State ∅ []) "usage"
           (Exn KeyError "usage")).
  - unfold settings.
    repeat first [apply list_elem_of_here | apply list_elem_of_further].
  - vm_compute. reflexivity.
Defined.


